(** * EV-Battery-Monitor: the battery-estimation core of [server.js]

    A shallow embedding of the numeric core of the Express backend: the
    coulomb-counting state-of-charge integrator with its calibration
    handler, the two state-of-health models and the derived metrics
    (runtime, range, power, energy).

    [server.js] exists in two listings.  The first one (the "formula based"
    server) computes SOH by additive penalties; the second one (the "coulomb
    counting" server) keeps module-level accumulators, integrates the
    current over wall-clock time and computes SOH by multiplicative factors.
    Both listings carry textually identical copies of [calculateRuntime],
    [calculateRange], [calculatePower] and [calculateEnergy].

    Numbers.  A JavaScript number is modelled as [num]: either [NaN] or a
    finite value held as an exact rational.  Comparisons with [NaN] are
    false and arithmetic propagates [NaN], as in JavaScript.  The rounding
    of binary64 arithmetic, overflow to the infinities and the sign of zero
    are not modelled: finite arithmetic is exact, and an infinite value
    (from [parseFloat], from a request body or from overflow) has no
    counterpart in [num]. *)

From Stdlib Require Import QArith Qabs Qround ZArith List Bool Lia Lqa.
From Stdlib Require Import Ascii String.
Import ListNotations.

Local Open Scope Q_scope.

(** ** JavaScript numbers *)

Inductive num : Type :=
| NaN
| Fin (q : Q).

Coercion Fin : Q >-> num.

Definition Qlt_bool (x y : Q) : bool := negb (Qle_bool y x).

Module Num.

Definition add (a b : num) : num :=
  match a, b with
  | Fin x, Fin y => Fin (x + y)
  | _, _ => NaN
  end.

Definition sub (a b : num) : num :=
  match a, b with
  | Fin x, Fin y => Fin (x - y)
  | _, _ => NaN
  end.

Definition mul (a b : num) : num :=
  match a, b with
  | Fin x, Fin y => Fin (x * y)
  | _, _ => NaN
  end.

(** Every division of the embedded code has a divisor that is a nonzero
    constant or is guarded by [current > 0]; a zero divisor, which would
    give an infinity or [NaN] in JavaScript, is mapped to [NaN] here. *)
Definition div (a b : num) : num :=
  match a, b with
  | Fin x, Fin y => if Qeq_bool y 0 then NaN else Fin (x / y)
  | _, _ => NaN
  end.

(** [Math.abs] *)
Definition abs (a : num) : num :=
  match a with
  | Fin x => Fin (Qabs x)
  | NaN => NaN
  end.

(** [a < b], [a <= b], [a > b], [a >= b]: false as soon as one side is
    [NaN]. *)
Definition lt (a b : num) : bool :=
  match a, b with
  | Fin x, Fin y => Qlt_bool x y
  | _, _ => false
  end.

Definition le (a b : num) : bool :=
  match a, b with
  | Fin x, Fin y => Qle_bool x y
  | _, _ => false
  end.

Definition gt (a b : num) : bool := lt b a.
Definition ge (a b : num) : bool := le b a.

(** [Math.max] and [Math.min] of two arguments: [NaN] when one is. *)
Definition max (a b : num) : num :=
  match a, b with
  | Fin x, Fin y => Fin (if Qle_bool x y then y else x)
  | _, _ => NaN
  end.

Definition min (a b : num) : num :=
  match a, b with
  | Fin x, Fin y => Fin (if Qle_bool x y then x else y)
  | _, _ => NaN
  end.

Definition isNaN (a : num) : bool :=
  match a with
  | NaN => true
  | Fin _ => false
  end.

(** Unary minus. *)
Definition neg (a : num) : num :=
  match a with
  | Fin x => Fin (- x)
  | NaN => NaN
  end.

(** [Math.round]: the nearest integer, a tie going up. *)
Definition round (a : num) : num :=
  match a with
  | Fin x => Fin (inject_Z (Qfloor (x + (1 # 2))))
  | NaN => NaN
  end.

(** [a || 0] on numbers: [NaN] and zero are falsy. *)
Definition or_zero (a : num) : num :=
  match a with
  | Fin x => if Qeq_bool x 0 then Fin 0 else a
  | NaN => Fin 0
  end.

(** The same value: both [NaN], or finite and equal as rationals. *)
Definition same (a b : num) : Prop :=
  match a, b with
  | NaN, NaN => True
  | Fin x, Fin y => x == y
  | _, _ => False
  end.

(** A finite value within the closed interval [lo, hi]. *)
Definition within (lo hi : Q) (a : num) : Prop :=
  match a with
  | Fin x => lo <= x <= hi
  | NaN => False
  end.

Definition finite (a : num) : Prop :=
  match a with
  | Fin _ => True
  | NaN => False
  end.

End Num.

Declare Scope js_scope.
Delimit Scope js_scope with js.
Bind Scope js_scope with num.

Infix "+" := Num.add : js_scope.
Infix "-" := Num.sub : js_scope.
Infix "*" := Num.mul : js_scope.
Infix "/" := Num.div : js_scope.
Infix "<?" := Num.lt (at level 70, no associativity) : js_scope.
Infix "<=?" := Num.le (at level 70, no associativity) : js_scope.
Infix ">?" := Num.gt (at level 70, no associativity) : js_scope.
Infix ">=?" := Num.ge (at level 70, no associativity) : js_scope.
Infix "=n=" := Num.same (at level 70, no associativity).

(** ** Derived metrics (identical in both listings) *)

(** [calculateRuntime(soc, current)], server.js lines 193-212 and 577-596. *)
Definition calculateRuntime (soc current : num) : num :=
  let BATTERY_CAPACITY : num := 2.0 in
  let EFFICIENCY : num := 0.85 in
  let availableCapacity := ((soc / 100) * BATTERY_CAPACITY)%js in
  if (current <=? 0)%js || Num.isNaN current then
    availableCapacity
  else
    let runtime := (availableCapacity / Num.abs current)%js in
    let runtime := (runtime * EFFICIENCY)%js in
    Num.max 0 runtime.

(** [calculateRange(soc, current)], lines 218-227 and 602-611. *)
Definition calculateRange (soc current : num) : num :=
  let runtime := calculateRuntime soc current in
  let AVERAGE_SPEED : num := 25 in
  let range := (runtime * AVERAGE_SPEED)%js in
  Num.max 0 range.

(** [calculatePower(voltage, current)], lines 233-235 and 617-619. *)
Definition calculatePower (voltage current : num) : num :=
  (voltage * Num.abs current)%js.

(** [calculateEnergy(voltage, soc)], lines 241-246 and 625-630. *)
Definition calculateEnergy (voltage soc : num) : num :=
  let BATTERY_CAPACITY : num := 2.0 in
  let availableCapacity := ((soc / 100) * BATTERY_CAPACITY)%js in
  let energy := (voltage * availableCapacity)%js in
  energy.

(** ** First listing: SOH by additive penalties (Model A) *)

Module FormulaBased.

(** [calculateSOH(voltage, current, temperature)], lines 96-187. *)
Definition calculateSOH (voltage current temperature : num) : num :=
  let totalDegradation : num := 0 in
  (* Factor 1: voltage sag under load *)
  let totalDegradation :=
    if (Num.abs current >? 0)%js then
      let expectedVoltageDrop := (Num.abs current * 0.1)%js in
      let expectedVoltage := (3.7 - expectedVoltageDrop)%js in
      if (voltage <? expectedVoltage - 0.2)%js then
        (totalDegradation + 10)%js
      else if (voltage <? expectedVoltage - 0.1)%js then
        (totalDegradation + 5)%js
      else totalDegradation
    else totalDegradation in
  (* Factor 2: temperature *)
  let totalDegradation :=
    if (temperature >? 60)%js then (totalDegradation + 15)%js
    else if (temperature >? 50)%js then (totalDegradation + 10)%js
    else if (temperature >? 40)%js then (totalDegradation + 5)%js
    else if (temperature <? 0)%js then (totalDegradation + 8)%js
    else if (temperature <? 10)%js then (totalDegradation + 3)%js
    else totalDegradation in
  (* Factor 3: deep discharge *)
  let totalDegradation :=
    if (voltage <? 3.0)%js then (totalDegradation + 20)%js
    else if (voltage <? 3.2)%js then (totalDegradation + 10)%js
    else if (voltage <? 3.4)%js then (totalDegradation + 3)%js
    else totalDegradation in
  (* Factor 4: discharge rate *)
  let BATTERY_CAPACITY : num := 2.0 in
  let cRate := (Num.abs current / BATTERY_CAPACITY)%js in
  let totalDegradation :=
    if (cRate >? 2.0)%js then (totalDegradation + 8)%js
    else if (cRate >? 1.5)%js then (totalDegradation + 5)%js
    else if (cRate >? 1.0)%js then (totalDegradation + 2)%js
    else totalDegradation in
  (* Factor 5: overcharge *)
  let totalDegradation :=
    if (voltage >? 4.25)%js then (totalDegradation + 15)%js
    else if (voltage >? 4.22)%js then (totalDegradation + 5)%js
    else totalDegradation in
  let soh := (100 - totalDegradation)%js in
  Num.max 0 (Num.min 100 soh).

(** [calculateSOC(voltage)], lines 54-90: the piece-wise linear discharge
    curve. *)
Definition calculateSOC (voltage : num) : num :=
  let V_MIN : num := 3.0 in
  let V_MAX : num := 4.2 in
  let V_NOMINAL : num := 3.7 in
  let soc : num := 0 in
  let soc : num :=
    if (voltage >=? 4.2)%js then 100
    else if (voltage >=? 4.0)%js then
      (80 + ((voltage - 4.0) / (4.2 - 4.0)) * 20)%js
    else if (voltage >=? 3.7)%js then
      (40 + ((voltage - 3.7) / (4.0 - 3.7)) * 40)%js
    else if (voltage >=? 3.4)%js then
      (10 + ((voltage - 3.4) / (3.7 - 3.4)) * 30)%js
    else if (voltage >=? 3.0)%js then
      (0 + ((voltage - 3.0) / (3.4 - 3.0)) * 10)%js
    else 0 in
  Num.max 0 (Num.min 100 soc).

(** The numbers the [/api/data] handler computes, lines 269-297, before
    [toFixed] formats them; the SOC and the SOH are the rounded ones of the
    response. *)
Record BatteryData : Type := mkBatteryData {
  bd_voltage : num;
  bd_current : num;
  bd_temperature : num;
  bd_soc : num;
  bd_soh : num;
  bd_runtime : num;
  bd_range : num;
  bd_power : num;
  bd_energy : num
}.

(** [field1], [field2] and [field3] stand for what [parseFloat] returns
    for the three fields of the feed. *)
Definition batteryData (field1 field2 field3 : num) : BatteryData :=
  let voltage := Num.or_zero field1 in
  let current := Num.or_zero field2 in
  let temperature := Num.or_zero field3 in
  let soc := calculateSOC voltage in
  let soh := calculateSOH voltage current temperature in
  let runtime := calculateRuntime soc current in
  let range := calculateRange soc current in
  let power := calculatePower voltage current in
  let energy := calculateEnergy voltage soc in
  {| bd_voltage := voltage;
     bd_current := current;
     bd_temperature := temperature;
     bd_soc := Num.round soc;
     bd_soh := Num.round soh;
     bd_runtime := runtime;
     bd_range := range;
     bd_power := power;
     bd_energy := energy |}.

End FormulaBased.

(** ** The [/api/mode] handler (identical in both listings) *)

Module ModeApi.

(** What the write request to ThingSpeak comes back with: the request
    throws, or [response.data] is a number or a string. *)
Inductive reply : Type :=
| Throws (message : string)
| DataNumber (n : Z)
| DataString (s : string).

Inductive response : Type :=
| Status400
| Status200 (mode : string) (modeValue : Z) (message : string)
| Status500 (message : string).

Definition upper (c : ascii) : ascii :=
  let n := nat_of_ascii c in
  if ((97 <=? n) && (n <=? 122))%nat then ascii_of_nat (n - 32) else c.

(** [toUpperCase], on ASCII letters. *)
Fixpoint toUpperCase (s : string) : string :=
  match s with
  | EmptyString => EmptyString
  | String c rest => String (upper c) (toUpperCase rest)
  end.

(** The handler of lines 324-374 and 707-757.  [mode] is [req.body.mode]
    when it is a string and [None] for every other value, none of which is
    strictly equal to ["eco"] or ["sport"]; [thingspeak] answers the write
    request that carries a given [field5]. *)
Definition post_mode (mode : option string) (thingspeak : Z -> reply)
  : response :=
  match mode with
  | None => Status400
  | Some mode =>
      if (mode =? "")%string
         || (negb (mode =? "eco")%string && negb (mode =? "sport")%string)
      then Status400
      else
        let modeValue := if (mode =? "eco")%string then 0%Z else 1%Z in
        match thingspeak modeValue with
        | Throws message => Status500 message
        | DataNumber n =>
            if (n =? 0)%Z then
              Status500
                "ThingSpeak write failed (rate limit or invalid API key)"
            else
              Status200 mode modeValue
                        (toUpperCase mode ++ " mode activated")
        | DataString str =>
            if (str =? "0")%string then
              Status500
                "ThingSpeak write failed (rate limit or invalid API key)"
            else
              Status200 mode modeValue
                        (toUpperCase mode ++ " mode activated")
        end
  end.

(** The write went through: the request did not throw and the data that
    came back is neither the number 0 nor the string ["0"]. *)
Definition accepted (r : reply) : Prop :=
  match r with
  | Throws _ => False
  | DataNumber n => n <> 0%Z
  | DataString s => s <> "0"%string
  end.

End ModeApi.

(** ** The dashboard, [public/script.js] *)

Module Dashboard.

(** The width of the battery fill in [updateBatteryDisplay], line 73. *)
Definition fillWidth (soc : num) : num := ((soc / 100) * 180)%js.

(** [getBatteryColor(soc)], lines 120-124. *)
Definition getBatteryColor (soc : num) : string :=
  if (soc <? 20)%js then "#f44336"
  else if (soc <? 50)%js then "#ff9800"
  else "#4caf50".

End Dashboard.

(** ** Second listing: coulomb counting and SOH by factors (Model B) *)

Module CoulombCounting.

(** Battery parameters, lines 478-481.  The capacity is in mAh here. *)
Definition BATTERY_CAPACITY : num := 2000.0.
Definition NOMINAL_VOLTAGE : num := 3.7.
Definition MAX_VOLTAGE : num := 4.2.
Definition MIN_VOLTAGE : num := 3.0.

(** The module-level variables of lines 484-489.  [lastUpdateTime] holds
    a reading of [Date.now()], an integer number of milliseconds. *)
Record State : Type := mkState {
  totalCurrent_mAh : num;
  initialCapacity : num;
  consumedCapacity : num;
  lastUpdateTime : Z;
  isCharging : bool;
  previousCurrent : num
}.

(** The state after the module is loaded at time [t0]. *)
Definition initial (t0 : Z) : State :=
  {| totalCurrent_mAh := 0.0;
     initialCapacity := BATTERY_CAPACITY;
     consumedCapacity := 0.0;
     lastUpdateTime := t0;
     isCharging := false;
     previousCurrent := 0.0 |}.

Definition set_totalCurrent_mAh (v : num) (st : State) : State :=
  mkState v (initialCapacity st) (consumedCapacity st)
          (lastUpdateTime st) (isCharging st) (previousCurrent st).

Definition set_consumedCapacity (v : num) (st : State) : State :=
  mkState (totalCurrent_mAh st) (initialCapacity st) v
          (lastUpdateTime st) (isCharging st) (previousCurrent st).

Definition set_lastUpdateTime (t : Z) (st : State) : State :=
  mkState (totalCurrent_mAh st) (initialCapacity st) (consumedCapacity st)
          t (isCharging st) (previousCurrent st).

Definition set_isCharging (b : bool) (st : State) : State :=
  mkState (totalCurrent_mAh st) (initialCapacity st) (consumedCapacity st)
          (lastUpdateTime st) b (previousCurrent st).

(** [calculateSOC(current_mA, voltage)], lines 498-532.  [currentTime] is
    the value [Date.now()] returns inside the call; the result is the
    returned SOC and the module state after the call. *)
Definition calculateSOC (current_mA voltage : num) (currentTime : Z)
           (st : State) : num * State :=
  let deltaTime_h :=
    (Fin (inject_Z (currentTime - lastUpdateTime st)) / 3600000.0)%js in
  let st :=
    if (deltaTime_h >? 0)%js then
      let deltaCapacity_mAh := (current_mA * deltaTime_h)%js in
      let st :=
        set_totalCurrent_mAh (totalCurrent_mAh st + deltaCapacity_mAh)%js st in
      let st :=
        if (current_mA >? 0)%js then
          let st :=
            set_consumedCapacity
              (consumedCapacity st + deltaCapacity_mAh)%js st in
          set_isCharging false st
        else
          set_isCharging true st in
      set_lastUpdateTime currentTime st
    else st in
  let remainingCapacity := (BATTERY_CAPACITY - consumedCapacity st)%js in
  let soc := ((remainingCapacity / BATTERY_CAPACITY) * 100.0)%js in
  let soc : num := if (soc >? 100.0)%js then 100.0 else soc in
  let soc : num := if (soc <? 0.0)%js then 0.0 else soc in
  (soc, st).

(** [calculateSOH(voltage, temperature)], lines 541-572. *)
Definition calculateSOH (voltage temperature : num) : num :=
  let voltageFactor : num := 1.0 in
  let temperatureFactor : num := 1.0 in
  let voltageFactor : num :=
    if (voltage <? MIN_VOLTAGE + 0.2)%js then 0.8
    else if (voltage <? NOMINAL_VOLTAGE)%js then 0.9
    else voltageFactor in
  let temperatureFactor : num :=
    if (temperature >? 45.0)%js || (temperature <? 0.0)%js then 0.85
    else if (temperature >? 35.0)%js || (temperature <? 10.0)%js then 0.95
    else temperatureFactor in
  let soh := (voltageFactor * temperatureFactor * 100.0)%js in
  let soh : num := if (soh >? 100.0)%js then 100.0 else soh in
  let soh : num := if (soh <? 0.0)%js then 0.0 else soh in
  soh.

(** The part of the [/api/data] handler that reaches the estimator, lines
    654-662: the current of the telemetry sample, in A, is converted to
    mA and handed to [calculateSOC]. *)
Definition update (current voltage : num) (now : Z) (st : State)
  : num * State :=
  let current_mA := (current * 1000)%js in
  calculateSOC current_mA voltage now st.

(** The value of [req.body.soc] in the [/api/reset-soc] handler: absent,
    [null], a boolean, a (finite) number, or any other value the body
    parsers deliver (a string, an array, an object).  The handler uses the
    value through [soc || 100] and [100 - resetSOC] only, so another value
    stands as what ToBoolean and ToNumber make of it: ["abc"] is
    [JOther true NaN], ["50"] is [JOther true 50], [""] is
    [JOther false 0]. *)
Inductive jsval : Type :=
| JUndefined
| JNull
| JBool (b : bool)
| JNumber (q : Q)
| JOther (toBoolean : bool) (toNumber : num).

(** ToBoolean *)
Definition truthy (v : jsval) : bool :=
  match v with
  | JUndefined | JNull => false
  | JBool b => b
  | JNumber q => negb (Qeq_bool q 0)
  | JOther toBoolean _ => toBoolean
  end.

(** ToNumber *)
Definition ToNumber (v : jsval) : num :=
  match v with
  | JUndefined => NaN
  | JNull => 0
  | JBool true => 1
  | JBool false => 0
  | JNumber q => q
  | JOther _ toNumber => toNumber
  end.

(** [a || b] *)
Definition or_else (a b : jsval) : jsval := if truthy a then a else b.

(** The [/api/reset-soc] handler, lines 764-789, called at time [now]
    with [req.body.soc = soc].  The response carries the new
    [consumedCapacity]. *)
Definition reset_soc (soc : jsval) (now : Z) (st : State) : State :=
  let resetSOC := or_else soc (JNumber 100) in
  let st := set_totalCurrent_mAh 0.0 st in
  let st :=
    set_consumedCapacity
      (((100 - ToNumber resetSOC) / 100) * BATTERY_CAPACITY)%js st in
  set_lastUpdateTime now st.

(** The requests that touch the state, and a run of them in order. *)
Inductive request : Type :=
| Data (current voltage : num) (now : Z)
| ResetSoc (soc : jsval) (now : Z).

Definition handle (st : State) (r : request) : State :=
  match r with
  | Data current voltage now => snd (update current voltage now st)
  | ResetSoc soc now => reset_soc soc now st
  end.

Definition run (rs : list request) (st : State) : State :=
  fold_left handle rs st.

End CoulombCounting.

(** ** The quantities the specification speaks of *)

Import CoulombCounting.

(** [consumedCapacityAh]: the accumulator, converted from mAh to Ah. *)
Definition consumedCapacityAh (st : State) : num :=
  (consumedCapacity st / 1000)%js.

(** [ratedCapacityAh]: the rated capacity, converted from mAh to Ah. *)
Definition ratedCapacityAh : num := (BATTERY_CAPACITY / 1000)%js.

(** [deltaHours]: the time since the last update, as a call at [now]
    computes it. *)
Definition deltaHours (now : Z) (st : State) : num :=
  (Fin (inject_Z (now - lastUpdateTime st)) / 3600000.0)%js.

(** The SOC a call returns for a given accumulator (lines 518-523). *)
Definition socOf (st : State) : num :=
  let remainingCapacity := (BATTERY_CAPACITY - consumedCapacity st)%js in
  let soc := ((remainingCapacity / BATTERY_CAPACITY) * 100.0)%js in
  let soc : num := if (soc >? 100.0)%js then 100.0 else soc in
  let soc : num := if (soc <? 0.0)%js then 0.0 else soc in
  soc.

(** The SOC values a run of telemetry samples returns, in order. *)
Fixpoint socs (samples : list (num * num * Z)) (st : State) : list num :=
  match samples with
  | [] => []
  | (current, voltage, now) :: rest =>
      let '(soc, st') := update current voltage now st in
      soc :: socs rest st'
  end.

(** Every sample of the run discharges ([currentAmps > 0]) and arrives
    after the clock has advanced ([deltaHours > 0]). *)
Fixpoint discharging (samples : list (num * num * Z)) (st : State) : Prop :=
  match samples with
  | [] => True
  | (current, voltage, now) :: rest =>
      (current >? 0)%js = true /\ (deltaHours now st >? 0)%js = true /\
      discharging rest (snd (update current voltage now st))
  end.

(** Consecutive values never go up. *)
Fixpoint non_increasing (l : list num) : Prop :=
  match l with
  | a :: (b :: _) as tl => (b <=? a)%js = true /\ non_increasing tl
  | _ => True
  end.

(** The percentage a calibration request makes the handler use (the
    asserted value, or the default 100 in place of a falsy one) is a number
    that is at most 100. *)
Definition asserts_at_most_100 (r : request) : Prop :=
  match r with
  | ResetSoc soc _ =>
      (ToNumber (or_else soc (JNumber 100)) <=? 100)%js = true
  | Data _ _ _ => True
  end.

(** The invariant in the specification's words: the accumulator lies in
    [0, ratedCapacityAh]. *)
Definition within_rated (st : State) : Prop :=
  (0 <=? consumedCapacityAh st)%js = true /\
  (consumedCapacityAh st <=? ratedCapacityAh)%js = true.

(** The clamp of the specification's calibration contract: a percentage
    brought into [0, 100]. *)
Definition clampPercent (p : num) : num := Num.max 0 (Num.min 100 p).

(** The calibration in the specification's words: the accumulator, in Ah,
    that results when the asserted percentage is clamped first and then
    used in [ratedCapacityAh * (100 - assertedSocPercent) / 100]. *)
Definition reset_with_clamp (assertedSocPercent : num) : num :=
  (ratedCapacityAh * (100 - clampPercent assertedSocPercent) / 100)%js.

(** ** Comparisons on rationals *)

Lemma Qle_bool_spec (x y : Q) : reflect (x <= y) (Qle_bool x y).
Proof. apply iff_reflect. symmetry. apply Qle_bool_iff. Qed.

Lemma Qlt_bool_spec (x y : Q) : reflect (x < y) (Qlt_bool x y).
Proof.
  unfold Qlt_bool. destruct (Qle_bool_spec y x); constructor.
  - now apply Qle_not_lt.
  - now apply Qnot_le_lt.
Qed.

Lemma Qeq_bool_spec (x y : Q) : reflect (x == y) (Qeq_bool x y).
Proof. apply iff_reflect. symmetry. apply Qeq_bool_iff. Qed.

Lemma Qabs_cases (x : Q) : (0 <= x /\ Qabs x == x) \/ (x < 0 /\ Qabs x == - x).
Proof.
  destruct (Qlt_le_dec x 0) as [H | H].
  - right. split; [assumption |]. apply Qabs_neg. lra.
  - left. split; [assumption |]. now apply Qabs_pos.
Qed.

(** Split every comparison in sight into its two outcomes, as facts on
    rationals. *)
Ltac split_tests :=
  repeat match goal with
  | |- context [Qle_bool ?x ?y] => destruct (Qle_bool_spec x y)
  | |- context [Qlt_bool ?x ?y] => destruct (Qlt_bool_spec x y)
  | |- context [Qeq_bool ?x ?y] => destruct (Qeq_bool_spec x y)
  | H : context [Qle_bool ?x ?y] |- _ => destruct (Qle_bool_spec x y)
  | H : context [Qlt_bool ?x ?y] |- _ => destruct (Qlt_bool_spec x y)
  | H : context [Qeq_bool ?x ?y] |- _ => destruct (Qeq_bool_spec x y)
  end.

(** Linear arithmetic after the inverses of constants are evaluated. *)
Ltac qlin :=
  unfold Qdiv in *;
  repeat match goal with
  | |- context [/ ?c] =>
      let v := eval vm_compute in (Qred (/ c)) in
      setoid_replace (/ c) with v by reflexivity
  | H : context [/ ?c] |- _ =>
      let v := eval vm_compute in (Qred (/ c)) in
      setoid_replace (/ c) with v in H by reflexivity
  end;
  lra.

Ltac js_unfold :=
  unfold Num.gt, Num.ge, Num.lt, Num.le, Num.add, Num.sub, Num.mul, Num.div,
    Num.max, Num.min, Num.abs, Num.isNaN, Num.same, Num.within, Num.finite
    in *.

(** ** The state transformer of [calculateSOC] *)

Lemma deltaHours_pos (now : Z) (st : State) :
  (deltaHours now st >? 0)%js = true <-> (lastUpdateTime st < now)%Z.
Proof.
  unfold deltaHours. js_unfold. simpl.
  set (d := (now - lastUpdateTime st)%Z).
  assert (E : (lastUpdateTime st < now)%Z <-> (0 < d)%Z) by (subst d; lia).
  rewrite E. clear E.
  destruct (Qlt_bool_spec 0 (inject_Z d / 3600000.0)) as [H | H].
  - split; [intros _ | reflexivity].
    rewrite Zlt_Qlt. unfold Qdiv in H.
    setoid_replace (inject_Z 0) with 0 by reflexivity.
    assert (0 < / 3600000.0) by reflexivity. nra.
  - split; [discriminate | intros Hd]. exfalso. apply H.
    rewrite Zlt_Qlt in Hd. unfold Qdiv.
    setoid_replace (inject_Z 0) with 0 in Hd by reflexivity.
    assert (0 < / 3600000.0) by reflexivity. nra.
Qed.

Lemma calculateSOC_fst (c v : num) (t : Z) (st : State) :
  fst (calculateSOC c v t st) = socOf (snd (calculateSOC c v t st)).
Proof. reflexivity. Qed.

Lemma calculateSOC_consumed (c v : num) (t : Z) (st : State) :
  consumedCapacity (snd (calculateSOC c v t st)) =
  if (deltaHours t st >? 0)%js && (c >? 0)%js
  then (consumedCapacity st + c * deltaHours t st)%js
  else consumedCapacity st.
Proof.
  unfold calculateSOC. fold (deltaHours t st). cbn [snd].
  destruct (deltaHours t st >? 0)%js; [| reflexivity].
  destruct (c >? 0)%js; reflexivity.
Qed.

Lemma deltaHours_finite (now : Z) (st : State) :
  deltaHours now st = Fin (inject_Z (now - lastUpdateTime st) / 3600000.0).
Proof. reflexivity. Qed.

(** ** C1 *)

(** C1.  A call with [currentAmps > 0] and [deltaHours > 0] adds exactly
    [currentAmps * deltaHours] to [consumedCapacityAh]; and from an empty
    accumulator (rated capacity 2.0 Ah) one call with 2 A after exactly one
    hour leaves [consumedCapacityAh = 2.0] and returns an SOC of 0. *)
Theorem C1_update_adds_current_times_deltaHours
        (st : State) (current voltage : num) (now : Z)
        (Hcur : (current >? 0)%js = true)
        (Hdt : (deltaHours now st >? 0)%js = true) :
  consumedCapacityAh (snd (update current voltage now st))
    =n= (consumedCapacityAh st + current * deltaHours now st)%js
  /\ ratedCapacityAh =n= 2.0
  /\ (forall (t0 : Z) (v : num),
        let r := update 2 v (t0 + 3600000) (initial t0) in
        consumedCapacityAh (initial t0) =n= 0 /\
        deltaHours (t0 + 3600000) (initial t0) =n= 1 /\
        consumedCapacityAh (snd r) =n= 2.0 /\ fst r =n= 0).
Proof.
  split; [| split].
  - unfold consumedCapacityAh, update.
    rewrite calculateSOC_consumed, Hdt.
    destruct current as [| a]; [discriminate |].
    assert (Ha : (Fin a * 1000 >? 0)%js = true).
    { revert Hcur. js_unfold.
      split_tests; try reflexivity; intros; try discriminate.
      exfalso. lra. }
    rewrite Ha. cbn [andb]. rewrite deltaHours_finite.
    destruct (consumedCapacity st) as [| c0]; js_unfold; cbn; [exact I |].
    field.
  - reflexivity.
  - intros t0 v r. subst r. unfold update, consumedCapacityAh.
    rewrite calculateSOC_fst. unfold socOf.
    rewrite calculateSOC_consumed. unfold deltaHours.
    cbn [initial lastUpdateTime consumedCapacity].
    replace (t0 + 3600000 - t0)%Z with 3600000%Z by lia.
    repeat split; vm_compute; reflexivity.
Qed.

Lemma C1_update_adds_current_times_deltaHours_witness :
  (0.5 >? 0)%js = true /\
  (deltaHours 7200000 (initial 0) >? 0)%js = true /\
  consumedCapacityAh (snd (update 0.5 3.7 7200000 (initial 0)))
    =n= (consumedCapacityAh (initial 0)
         + 0.5 * deltaHours 7200000 (initial 0))%js.
Proof.
  assert (Hcur : (0.5 >? 0)%js = true) by reflexivity.
  assert (Hdt : (deltaHours 7200000 (initial 0) >? 0)%js = true) by reflexivity.
  split; [exact Hcur |]. split; [exact Hdt |].
  exact (proj1 (C1_update_adds_current_times_deltaHours
                  (initial 0) 0.5 3.7 7200000%Z Hcur Hdt)).
Defined.

(** ** The returned SOC and the accumulator *)

Lemma socOf_finite (st : State) (c : Q) :
  consumedCapacity st = Fin c ->
  exists s : Q, socOf st = Fin s /\ 0 <= s <= 100 /\
    (s == (2000 - c) / 2000 * 100 \/
     (s == 100 /\ c <= 0) \/ (s == 0 /\ 2000 <= c)).
Proof.
  intros Hc. unfold socOf, BATTERY_CAPACITY. rewrite Hc.
  unfold Num.gt, Num.lt, Num.sub, Num.div, Num.mul.
  change (Qeq_bool 2000.0 0) with false. cbv iota.
  destruct (Qlt_bool_spec 100.0 ((2000.0 - c) / 2000.0 * 100.0)) as [H1 | H1].
  - change (Qlt_bool 100.0 0.0) with false. cbv iota.
    exists 100.0. split; [reflexivity |]. split; [lra |].
    right; left. split; [reflexivity |]. unfold Qdiv in H1.
    setoid_replace (/ 2000.0) with (1 # 2000) in H1 by reflexivity. lra.
  - destruct (Qlt_bool_spec ((2000.0 - c) / 2000.0 * 100.0) 0.0) as [H2 | H2].
    + exists 0.0. split; [reflexivity |]. split; [lra |].
      right; right. split; [reflexivity |]. unfold Qdiv in H2.
      setoid_replace (/ 2000.0) with (1 # 2000) in H2 by reflexivity. lra.
    + exists ((2000.0 - c) / 2000.0 * 100.0). split; [reflexivity |].
      split; [lra |]. left. unfold Qdiv.
      setoid_replace (/ 2000.0) with (1 # 2000) by reflexivity.
      setoid_replace (/ 2000) with (1 # 2000) by reflexivity. lra.
Qed.

Lemma socOf_within (st : State) :
  Num.finite (consumedCapacity st) -> Num.within 0 100 (socOf st).
Proof.
  destruct (consumedCapacity st) as [| c] eqn:Hc; [intros [] | intros _].
  destruct (socOf_finite st c Hc) as (s & Hs & Hrange & _).
  rewrite Hs. exact Hrange.
Qed.

(** A later accumulator that is no smaller gives an SOC that is no larger. *)
Lemma socOf_antitone (st1 st2 : State) (c1 c2 : Q) :
  consumedCapacity st1 = Fin c1 -> consumedCapacity st2 = Fin c2 ->
  c1 <= c2 -> (socOf st2 <=? socOf st1)%js = true.
Proof.
  intros H1 H2 Hle.
  destruct (socOf_finite st1 c1 H1) as (s1 & E1 & R1 & F1).
  destruct (socOf_finite st2 c2 H2) as (s2 & E2 & R2 & F2).
  rewrite E1, E2. unfold Num.le.
  destruct (Qle_bool_spec s2 s1) as [H | H]; [reflexivity |].
  exfalso. apply H. unfold Qdiv in F1, F2.
  setoid_replace (/ 2000) with (1 # 2000) in F1 by reflexivity.
  setoid_replace (/ 2000) with (1 # 2000) in F2 by reflexivity.
  destruct F1 as [F1 | [[F1 G1] | [F1 G1]]];
    destruct F2 as [F2 | [[F2 G2] | [F2 G2]]]; lra.
Qed.

(** What one telemetry sample does to a finite accumulator. *)
Lemma update_consumed (current voltage : num) (now : Z) (st : State) (c : Q) :
  consumedCapacity st = Fin c ->
  exists c' : Q,
    consumedCapacity (snd (update current voltage now st)) = Fin c' /\ c <= c'.
Proof.
  intros Hc. unfold update. rewrite calculateSOC_consumed, Hc.
  destruct (deltaHours now st >? 0)%js eqn:Hdt; cbn [andb];
    [| exists c; split; [reflexivity | lra]].
  destruct (current * 1000 >? 0)%js eqn:Hcur;
    [| exists c; split; [reflexivity | lra]].
  rewrite deltaHours_finite in *.
  destruct current as [| a]; [discriminate |].
  revert Hdt Hcur. js_unfold. cbn [Num.mul]. split_tests; try discriminate.
  intros _ _. eexists. split; [reflexivity |]. nra.
Qed.

Lemma reset_soc_consumed (soc : jsval) (now : Z) (st : State) :
  asserts_at_most_100 (ResetSoc soc now) ->
  exists c' : Q,
    consumedCapacity (reset_soc soc now st) = Fin c' /\ 0 <= c'.
Proof.
  unfold asserts_at_most_100, reset_soc.
  cbn [set_lastUpdateTime set_consumedCapacity consumedCapacity].
  destruct (ToNumber (or_else soc (JNumber 100))) as [| p];
    [discriminate |].
  intros Hle. apply Qle_bool_iff in Hle.
  unfold BATTERY_CAPACITY. js_unfold.
  change (Qeq_bool 100 0) with false. cbv iota.
  eexists. split; [reflexivity |]. qlin.
Qed.

(** As long as no calibration makes the handler use more than 100 percent
    or something that is not a number, the accumulator stays a number that
    is not negative. *)
Lemma run_consumed (rs : list request) (st : State) (c : Q) :
  consumedCapacity st = Fin c -> 0 <= c ->
  Forall asserts_at_most_100 rs ->
  exists c' : Q, consumedCapacity (run rs st) = Fin c' /\ 0 <= c'.
Proof.
  revert st c. induction rs as [| r rs IH]; intros st c Hc H0 Hall.
  - exists c. split; assumption.
  - inversion Hall as [| r' rs' Hr Hrs]; subst.
    cbn [run fold_left]. fold (run rs (handle st r)).
    assert (Hstep : exists c1 : Q,
              consumedCapacity (handle st r) = Fin c1 /\ 0 <= c1).
    { destruct r as [current voltage now | soc now]; cbn [handle].
      - destruct (update_consumed current voltage now st c Hc) as (c1 & E & L).
        exists c1. split; [exact E | lra].
      - exact (reset_soc_consumed soc now st Hr). }
    destruct Hstep as (c1 & E1 & L1).
    exact (IH _ _ E1 L1 Hrs).
Qed.

(** ** C2 *)

(** C2, counterexample.  After one sample of 4 A that arrives one hour
    after start-up the accumulator holds 4 Ah, twice the rated capacity:
    it is not clamped. *)
Lemma C2_accumulator_not_clamped :
  consumedCapacityAh (run [Data 4 3.7 3600000] (initial 0)) =n= 4 /\
  ratedCapacityAh =n= 2 /\
  ~ (forall (rs : list request) (t0 : Z), within_rated (run rs (initial t0))).
Proof.
  split; [vm_compute; reflexivity |]. split; [vm_compute; reflexivity |].
  intros H. destruct (H [Data 4 3.7 3600000] 0%Z) as [_ Hup].
  vm_compute in Hup. discriminate.
Qed.

(** C2, as the code has it.  After every sequence of updates and
    calibrations in which every calibration makes the handler use a number
    that is at most 100 percent, [consumedCapacityAh] is at least 0.  (Only
    the returned SOC is clamped; the accumulator has no upper clamp.) *)
Theorem C2_accumulator_not_negative
        (rs : list request) (t0 : Z)
        (Hrs : Forall asserts_at_most_100 rs) :
  (0 <=? consumedCapacityAh (run rs (initial t0)))%js = true.
Proof.
  assert (Hinit : 0 <= 0.0) by (vm_compute; discriminate).
  destruct (run_consumed rs (initial t0) 0.0 eq_refl Hinit Hrs)
    as (c & Hc & H0).
  unfold consumedCapacityAh. rewrite Hc.
  js_unfold. change (Qeq_bool 1000 0) with false. cbv iota.
  destruct (Qle_bool_spec 0 (c / 1000)) as [H | H]; [reflexivity |].
  exfalso. apply H. unfold Qdiv.
  setoid_replace (/ 1000) with (1 # 1000) by reflexivity. lra.
Qed.

Lemma C2_accumulator_not_negative_witness :
  Forall asserts_at_most_100
         [Data 4 3.7 3600000; ResetSoc (JNumber 40) 3600500;
          Data 1 3.6 7200500] /\
  (0 <=? consumedCapacityAh
           (run [Data 4 3.7 3600000; ResetSoc (JNumber 40) 3600500;
                 Data 1 3.6 7200500] (initial 0)))%js = true.
Proof.
  assert (H : Forall asserts_at_most_100
                     [Data 4 3.7 3600000; ResetSoc (JNumber 40) 3600500;
                      Data 1 3.6 7200500]).
  { repeat constructor. }
  split; [exact H |].
  exact (C2_accumulator_not_negative _ 0%Z H).
Defined.

(** ** C3 *)

Lemma socs_within (samples : list (num * num * Z)) (st : State) (c : Q) :
  consumedCapacity st = Fin c ->
  Forall (Num.within 0 100) (socs samples st).
Proof.
  revert st c. induction samples as [| [[current voltage] now] rest IH];
    intros st c Hc; cbn [socs]; [constructor |].
  destruct (update current voltage now st) as [soc st'] eqn:E.
  destruct (update_consumed current voltage now st c Hc) as (c' & Hc' & _).
  rewrite E in Hc'. cbn [snd] in Hc'.
  constructor; [| exact (IH st' c' Hc')].
  replace soc with (fst (update current voltage now st)) by (now rewrite E).
  unfold update. rewrite calculateSOC_fst. apply socOf_within.
  unfold update in E. rewrite E. cbn [snd]. rewrite Hc'. exact I.
Qed.

(** C3.  From start-up on, whatever current, voltage and clock reading the
    telemetry samples carry (huge, negative or [NaN]), every SOC an update
    returns is a number in [0, 100]. *)
Theorem C3_returned_soc_in_range
        (t0 : Z) (samples : list (num * num * Z)) :
  Forall (Num.within 0 100) (socs samples (initial t0)).
Proof. exact (socs_within samples (initial t0) 0.0 eq_refl). Qed.

(** ** C4 *)

(** C4, counterexample.  A calibration that asserts 200 percent leaves the
    accumulator at -2 Ah, where clamping the percentage first would leave
    it at 0. *)
Lemma C4_reset_does_not_clamp :
  consumedCapacityAh (reset_soc (JNumber 200) 0 (initial 0)) =n= (-2) /\
  reset_with_clamp 200 =n= 0 /\
  ~ (forall (q : Q) (now : Z) (st : State),
        consumedCapacityAh (reset_soc (JNumber q) now st)
          =n= reset_with_clamp q).
Proof.
  split; [vm_compute; reflexivity |]. split; [vm_compute; reflexivity |].
  intros H. specialize (H 200 0%Z (initial 0)). vm_compute in H. discriminate.
Qed.

(** C4, as the code has it.  A calibration that asserts a nonzero
    percentage is never rejected and uses the percentage as it is given,
    without clamping: the accumulator becomes
    [ratedCapacityAh * (100 - assertedSocPercent) / 100] and
    [lastUpdateTime] becomes [now].  For a percentage within (0, 100] this
    is what clamping first would give. *)
Theorem C4_reset_sets_accumulator
        (q : Q) (now : Z) (st : State) (Hq : ~ q == 0) :
  let st' := reset_soc (JNumber q) now st in
  consumedCapacityAh st' =n= (ratedCapacityAh * (100 - q) / 100)%js /\
  lastUpdateTime st' = now /\
  (0 <= q <= 100 -> consumedCapacityAh st' =n= reset_with_clamp q).
Proof.
  cbv zeta. unfold reset_soc, or_else, consumedCapacityAh.
  cbn [truthy]. destruct (Qeq_bool_spec q 0) as [H | _]; [contradiction |].
  cbn [negb ToNumber set_lastUpdateTime set_consumedCapacity consumedCapacity
       lastUpdateTime].
  split; [| split].
  - unfold ratedCapacityAh, BATTERY_CAPACITY. js_unfold.
    change (Qeq_bool 100 0) with false. change (Qeq_bool 1000 0) with false.
    cbv iota. field.
  - reflexivity.
  - intros [Hlo Hhi].
    unfold reset_with_clamp, clampPercent, ratedCapacityAh, BATTERY_CAPACITY.
    js_unfold.
    change (Qeq_bool 100 0) with false. change (Qeq_bool 1000 0) with false.
    cbv iota.
    destruct (Qle_bool_spec 100 q); destruct (Qle_bool_spec 0 100);
      try destruct (Qle_bool_spec 0 q); try (exfalso; lra); qlin.
Qed.

Lemma C4_reset_sets_accumulator_witness :
  ~ 80 == 0 /\
  consumedCapacityAh (reset_soc (JNumber 80) 5000 (initial 0))
    =n= (ratedCapacityAh * (100 - 80) / 100)%js /\
  lastUpdateTime (reset_soc (JNumber 80) 5000 (initial 0)) = 5000%Z.
Proof.
  assert (H : ~ 80 == 0) by (intros E; vm_compute in E; discriminate).
  split; [exact H |].
  destruct (C4_reset_sets_accumulator 80 5000%Z (initial 0) H) as (A & B & _).
  split; [exact A | exact B].
Defined.

(** ** C5 *)

Lemma calculateSOC_stalled (c v : num) (now : Z) (st : State) :
  (deltaHours now st >? 0)%js = false ->
  calculateSOC c v now st = (socOf st, st).
Proof.
  intros H. unfold calculateSOC. fold (deltaHours now st). rewrite H.
  reflexivity.
Qed.

Lemma calculateSOC_charging (c v : num) (now : Z) (st : State) :
  (deltaHours now st >? 0)%js = true -> (c >? 0)%js = false ->
  let st' := snd (calculateSOC c v now st) in
  isCharging st' = true /\ consumedCapacity st' = consumedCapacity st /\
  lastUpdateTime st' = now.
Proof.
  intros Hdt Hc. unfold calculateSOC. fold (deltaHours now st).
  rewrite Hdt, Hc. cbn. repeat split.
Qed.

Lemma scaled_current_sign (current : num) :
  (current * 1000 >? 0)%js = (current >? 0)%js.
Proof.
  destruct current as [| a]; [reflexivity |]. js_unfold.
  destruct (Qlt_bool_spec 0 (a * 1000)); destruct (Qlt_bool_spec 0 a);
    try reflexivity; exfalso; lra.
Qed.

Lemma le_zero_not_gt (a : num) : (a <=? 0)%js = true -> (a >? 0)%js = false.
Proof.
  destruct a as [| x]; [discriminate |]. js_unfold.
  destruct (Qle_bool_spec x 0); [| discriminate]. intros _.
  destruct (Qlt_bool_spec 0 x); [exfalso; lra | reflexivity].
Qed.

(** C5.  An update changes the accumulator only when [deltaHours > 0] and
    [currentAmps > 0].  With [deltaHours <= 0] the call leaves the whole
    state as it was and returns the SOC of that state; with
    [currentAmps <= 0] on an advanced clock it sets [isCharging] and leaves
    the accumulator, hence the returned SOC, as it was. *)
Theorem C5_update_frame
        (st : State) (current voltage : num) (now : Z) :
  ((deltaHours now st <=? 0)%js = true ->
     update current voltage now st = (socOf st, st)) /\
  ((deltaHours now st >? 0)%js = true -> (current <=? 0)%js = true ->
     isCharging (snd (update current voltage now st)) = true /\
     consumedCapacity (snd (update current voltage now st))
       = consumedCapacity st /\
     fst (update current voltage now st) = socOf st) /\
  ((deltaHours now st >? 0)%js && (current >? 0)%js = false ->
     consumedCapacity (snd (update current voltage now st))
       = consumedCapacity st).
Proof.
  split; [| split].
  - intros H. apply le_zero_not_gt in H. unfold update.
    now apply calculateSOC_stalled.
  - intros Hdt Hcur. apply le_zero_not_gt in Hcur.
    rewrite <- scaled_current_sign in Hcur. unfold update.
    destruct (calculateSOC_charging _ voltage now st Hdt Hcur) as (A & B & _).
    split; [exact A |]. split; [exact B |].
    rewrite calculateSOC_fst. unfold socOf. now rewrite B.
  - intros H. unfold update.
    rewrite calculateSOC_consumed, scaled_current_sign, H. reflexivity.
Qed.

Lemma C5_update_frame_witness :
  (deltaHours 1000 (initial 1000) <=? 0)%js = true /\
  update 2 3.7 1000 (initial 1000) = (socOf (initial 1000), initial 1000) /\
  (deltaHours 3600000 (initial 0) >? 0)%js = true /\
  ((-1.5) <=? 0)%js = true /\
  isCharging (snd (update (-1.5) 4.1 3600000 (initial 0))) = true /\
  consumedCapacity (snd (update (-1.5) 4.1 3600000 (initial 0)))
    = consumedCapacity (initial 0).
Proof.
  pose proof (C5_update_frame (initial 1000) 2 3.7 1000%Z) as [A _].
  pose proof (C5_update_frame (initial 0) (-1.5) 4.1 3600000%Z) as [_ [B _]].
  split; [reflexivity |]. split; [exact (A eq_refl) |].
  split; [reflexivity |]. split; [reflexivity |].
  destruct (B eq_refl eq_refl) as (B1 & B2 & _).
  split; [exact B1 | exact B2].
Defined.

(** ** C6 *)

Lemma socs_head_le (samples : list (num * num * Z)) (st : State) (c : Q) :
  consumedCapacity st = Fin c ->
  match socs samples st with
  | [] => True
  | b :: _ => (b <=? socOf st)%js = true
  end.
Proof.
  intros Hc. destruct samples as [| [[current voltage] now] rest];
    cbn [socs]; [exact I |].
  destruct (update current voltage now st) as [soc st'] eqn:E.
  destruct (update_consumed current voltage now st c Hc) as (c' & Hc' & Hle).
  rewrite E in Hc'. cbn [snd] in Hc'.
  replace soc with (fst (update current voltage now st)) by (now rewrite E).
  unfold update. rewrite calculateSOC_fst. unfold update in E. rewrite E.
  cbn [snd]. exact (socOf_antitone st st' c c' Hc Hc' Hle).
Qed.

Lemma socs_non_increasing
      (samples : list (num * num * Z)) (st : State) (c : Q) :
  consumedCapacity st = Fin c -> non_increasing (socs samples st).
Proof.
  revert st c. induction samples as [| [[current voltage] now] rest IH];
    intros st c Hc; [exact I |].
  cbn [socs].
  destruct (update current voltage now st) as [soc st'] eqn:E.
  destruct (update_consumed current voltage now st c Hc) as (c' & Hc' & Hle).
  rewrite E in Hc'. cbn [snd] in Hc'.
  pose proof (IH st' c' Hc') as Hrest.
  pose proof (socs_head_le rest st' c' Hc') as Hhead.
  assert (Hsoc : soc = socOf st').
  { replace soc with (fst (update current voltage now st)) by (now rewrite E).
    unfold update. rewrite calculateSOC_fst. unfold update in E.
    now rewrite E. }
  destruct (socs rest st') as [| b tl]; [exact I |].
  cbn [non_increasing]. split; [| exact Hrest]. rewrite Hsoc. exact Hhead.
Qed.

(** C6.  From start-up on, a sequence of updates that all discharge
    ([currentAmps > 0]) on an advancing clock ([deltaHours > 0]) returns SOC
    values that never go up. *)
Theorem C6_soc_non_increasing
        (t0 : Z) (samples : list (num * num * Z))
        (Hdis : discharging samples (initial t0)) :
  non_increasing (socs samples (initial t0)).
Proof. exact (socs_non_increasing samples (initial t0) 0.0 eq_refl). Qed.

Lemma C6_soc_non_increasing_witness :
  discharging [(Fin 0.5, Fin 3.9, 3600000%Z); (Fin 1, Fin 3.8, 7200000%Z);
               (Fin 2, Fin 3.7, 9000000%Z)] (initial 0) /\
  non_increasing
    (socs [(Fin 0.5, Fin 3.9, 3600000%Z); (Fin 1, Fin 3.8, 7200000%Z);
           (Fin 2, Fin 3.7, 9000000%Z)] (initial 0)).
Proof.
  assert (H : discharging
                [(Fin 0.5, Fin 3.9, 3600000%Z); (Fin 1, Fin 3.8, 7200000%Z);
                 (Fin 2, Fin 3.7, 9000000%Z)] (initial 0)).
  { cbn. repeat split; reflexivity. }
  split; [exact H |].
  exact (C6_soc_non_increasing 0%Z _ H).
Defined.

(** ** C7 *)

Ltac split_conditions :=
  repeat match goal with
  | |- context [if ?b then _ else _] => destruct b
  end.

(** Expose the next [let] of a function body under [Num.within]. *)
Ltac next_let :=
  lazymatch goal with
  | |- Num.within ?lo ?hi (let x := ?e in @?b x) =>
      change (let x := e in Num.within lo hi (b x)); intro; cbv beta
  end.

(** One penalty block: whichever branch is taken, the bound [H] on the
    degradation so far gives the bound of the goal. *)
Ltac penalty_stage d H :=
  subst d; cbv zeta; split_conditions;
  match type of H with
  | Num.within _ _ ?d0 => destruct d0 as [| ?q]; [contradiction |]
  end;
  cbn [Num.add Num.within] in *; lra.

Lemma penalty_soh_within (voltage current temperature : num) :
  Num.within 0 100 (FormulaBased.calculateSOH voltage current temperature).
Proof.
  cbv delta [FormulaBased.calculateSOH]; cbv beta.
  next_let. rename totalDegradation into d0.
  assert (H0 : Num.within 0 0 d0) by (subst d0; cbn; lra).
  clearbody d0.
  next_let. rename totalDegradation into d1.
  assert (H1 : Num.within 0 10 d1) by penalty_stage d1 H0.
  clearbody d1. clear H0 d0.
  next_let. rename totalDegradation into d2.
  assert (H2 : Num.within 0 25 d2) by penalty_stage d2 H1.
  clearbody d2. clear H1 d1.
  next_let. rename totalDegradation into d3.
  assert (H3 : Num.within 0 45 d3) by penalty_stage d3 H2.
  clearbody d3. clear H2 d2.
  next_let. next_let. next_let. rename totalDegradation into d4.
  assert (H4 : Num.within 0 53 d4) by penalty_stage d4 H3.
  clearbody d4. clear H3 d3.
  next_let. rename totalDegradation into d5.
  assert (H5 : Num.within 0 68 d5) by penalty_stage d5 H4.
  clearbody d5. clear H4 d4.
  next_let. subst soh. destruct d5 as [| q]; [contradiction |].
  js_unfold. split_tests; lra.
Qed.

Lemma factor_soh_within (voltage temperature : num) :
  Num.within 0 100 (CoulombCounting.calculateSOH voltage temperature).
Proof.
  cbv delta [CoulombCounting.calculateSOH]; cbv beta.
  next_let. next_let.
  next_let. rename voltageFactor0 into vf.
  assert (Hv : vf = Fin 0.8 \/ vf = Fin 0.9 \/ vf = Fin 1.0)
    by (subst vf voltageFactor; split_conditions; auto).
  clearbody vf.
  next_let. rename temperatureFactor0 into tf.
  assert (Ht : tf = Fin 0.85 \/ tf = Fin 0.95 \/ tf = Fin 1.0)
    by (subst tf temperatureFactor; split_conditions; auto).
  clearbody tf.
  cbv zeta.
  destruct Hv as [-> | [-> | ->]]; destruct Ht as [-> | [-> | ->]];
    vm_compute; split; discriminate.
Qed.

(** C7.  For every voltage, current and temperature (finite or [NaN]) both
    SOH models return a number in [0, 100]; and at 3.7 V, 25 degrees and no
    current the penalty model returns 100 and the factor model returns 100. *)
Theorem C7_soh_in_range_and_nominal (voltage current temperature : num) :
  Num.within 0 100 (FormulaBased.calculateSOH voltage current temperature) /\
  Num.within 0 100 (CoulombCounting.calculateSOH voltage temperature) /\
  FormulaBased.calculateSOH 3.7 0 25 =n= 100 /\
  CoulombCounting.calculateSOH 3.7 25 =n= 100.
Proof.
  split; [apply penalty_soh_within |]. split; [apply factor_soh_within |].
  split; vm_compute; reflexivity.
Qed.

(** ** C8 *)

Lemma runtime_idle (soc current : num) :
  (current <=? 0)%js || Num.isNaN current = true ->
  calculateRuntime soc current = (soc / 100 * 2.0)%js.
Proof. intros H. unfold calculateRuntime. now rewrite H. Qed.

Lemma same_refl (a : num) : a =n= a.
Proof. destruct a; cbn; [exact I | reflexivity]. Qed.

Lemma runtime_drawing (s c : Q) :
  0 <= s -> ~ c <= 0 ->
  exists r : Q,
    calculateRuntime s c = Fin r /\ 0 <= r /\
    (s / 100 * 2.0 / Num.abs c * 0.85)%js = Fin r.
Proof.
  intros Hs Hc. unfold calculateRuntime.
  assert (E : (Fin c <=? 0)%js || Num.isNaN c = false).
  { cbn. destruct (Qle_bool_spec c 0); [contradiction | reflexivity]. }
  rewrite E. clear E.
  destruct (Qabs_cases c) as [[_ Habs] | [Hneg _]]; [| exfalso; lra].
  js_unfold. change (Qeq_bool 100 0) with false. cbv iota.
  destruct (Qeq_bool_spec (Qabs c) 0) as [H0 | _]; [exfalso; lra |].
  assert (Hr : 0 <= s / 100 * 2.0 / Qabs c * 0.85).
  { assert (Hinv : 0 < / Qabs c) by (apply Qinv_lt_0_compat; lra).
    unfold Qdiv. setoid_replace (/ 100) with (1 # 100) by reflexivity.
    nra. }
  exists (s / 100 * 2.0 / Qabs c * 0.85).
  destruct (Qle_bool_spec 0 (s / 100 * 2.0 / Qabs c * 0.85));
    [| contradiction].
  repeat split; assumption.
Qed.

Lemma runtime_not_negative (soc current : num) :
  (0 <=? soc)%js = true -> (0 <=? calculateRuntime soc current)%js = true.
Proof.
  intros Hsoc. destruct soc as [| s]; [discriminate |].
  assert (Hs : 0 <= s) by (revert Hsoc; js_unfold; split_tests; easy).
  assert (Hidle : (0 <=? Fin s / 100 * 2.0)%js = true).
  { js_unfold. change (Qeq_bool 100 0) with false. cbv iota.
    destruct (Qle_bool_spec 0 (s / 100 * 2.0)) as [| H]; [reflexivity |].
    exfalso. apply H. qlin. }
  destruct ((current <=? 0)%js || Num.isNaN current) eqn:E.
  - now rewrite (runtime_idle _ _ E).
  - destruct current as [| c]; [discriminate |].
    assert (Hc : ~ c <= 0).
    { revert E. cbn. destruct (Qle_bool_spec c 0); [discriminate | easy]. }
    destruct (runtime_drawing s c Hs Hc) as (r & Er & Hr & _).
    rewrite Er. cbn. now destruct (Qle_bool_spec 0 r).
Qed.

(** C8.  For every SOC that is at least 0, as the caller passes it, and
    every current: when the current is at most 0 or [NaN] the runtime is
    [soc / 100 * 2.0]; otherwise it is
    [soc / 100 * 2.0 / |current| * 0.85]; it is never negative; and with an
    SOC of 50 and a current of 1.0 it is 0.85. *)
Theorem C8_runtime_hours
        (soc current : num) (Hsoc : (0 <=? soc)%js = true) :
  ((current <=? 0)%js || Num.isNaN current = true ->
     calculateRuntime soc current =n= (soc / 100 * 2.0)%js) /\
  ((current <=? 0)%js || Num.isNaN current = false ->
     calculateRuntime soc current
       =n= (soc / 100 * 2.0 / Num.abs current * 0.85)%js) /\
  (0 <=? calculateRuntime soc current)%js = true /\
  calculateRuntime 50 1.0 =n= 0.85.
Proof.
  split; [| split; [| split]].
  - intros E. rewrite (runtime_idle _ _ E). apply same_refl.
  - intros E. destruct soc as [| s]; [discriminate |].
    destruct current as [| c]; [discriminate |].
    assert (Hs : 0 <= s) by (revert Hsoc; js_unfold; split_tests; easy).
    assert (Hc : ~ c <= 0).
    { revert E. cbn. destruct (Qle_bool_spec c 0); [discriminate | easy]. }
    destruct (runtime_drawing s c Hs Hc) as (r & Er & _ & Ef).
    rewrite Er, Ef. apply same_refl.
  - now apply runtime_not_negative.
  - vm_compute. reflexivity.
Qed.

Lemma C8_runtime_hours_witness :
  (0 <=? 80)%js = true /\
  (2 <=? 0)%js || Num.isNaN 2 = false /\
  calculateRuntime 80 2 =n= (80 / 100 * 2.0 / Num.abs 2 * 0.85)%js /\
  (0 <=? calculateRuntime 80 2)%js = true.
Proof.
  assert (H : (0 <=? 80)%js = true) by reflexivity.
  destruct (C8_runtime_hours 80 2 H) as (_ & B & C & _).
  split; [exact H |]. split; [reflexivity |].
  split; [exact (B eq_refl) | exact C].
Defined.

(** ** C9 *)

(** C9, counterexample.  With a voltage of -1 V, a current of 1 A and an
    SOC of 50 the power and the energy are both -1. *)
Lemma C9_power_energy_negative_voltage :
  calculatePower (-1) 1 =n= (-1) /\
  (calculatePower (-1) 1 <? 0)%js = true /\
  calculateEnergy (-1) 50 =n= (-1) /\
  (calculateEnergy (-1) 50 <? 0)%js = true.
Proof. repeat split; vm_compute; reflexivity. Qed.

(** C9, as the code has it.  For every finite voltage and finite SOC that
    are at least 0 and every finite current, the power
    [voltage * |current|] and the energy [voltage * (soc / 100 * 2.0)] are
    at least 0, and so are the runtime and the range. *)
Theorem C9_metrics_not_negative
        (voltage current soc : Q)
        (Hv : 0 <= voltage) (Hsoc : 0 <= soc) :
  calculatePower voltage current = (voltage * Num.abs current)%js /\
  (0 <=? calculatePower voltage current)%js = true /\
  calculateEnergy voltage soc = (voltage * (soc / 100 * 2.0))%js /\
  (0 <=? calculateEnergy voltage soc)%js = true /\
  (0 <=? calculateRuntime soc current)%js = true /\
  (0 <=? calculateRange soc current)%js = true.
Proof.
  assert (Hs : (0 <=? Fin soc)%js = true) by (now apply Qle_bool_iff).
  pose proof (runtime_not_negative soc current Hs) as Hrun.
  split; [reflexivity |]. split; [| split; [reflexivity | split; [| split]]].
  - unfold calculatePower. js_unfold.
    pose proof (Qabs_nonneg current) as Habs.
    destruct (Qle_bool_spec 0 (voltage * Qabs current)) as [| H];
      [reflexivity |].
    exfalso. apply H. nra.
  - unfold calculateEnergy. js_unfold.
    change (Qeq_bool 100 0) with false. cbv iota.
    destruct (Qle_bool_spec 0 (voltage * (soc / 100 * 2.0))) as [| H];
      [reflexivity |].
    exfalso. apply H. unfold Qdiv.
    setoid_replace (/ 100) with (1 # 100) by reflexivity. nra.
  - exact Hrun.
  - unfold calculateRange.
    destruct (calculateRuntime soc current) as [| r]; [discriminate |].
    revert Hrun. js_unfold. split_tests; try easy. intros _. exfalso. lra.
Qed.

Lemma C9_metrics_not_negative_witness :
  0 <= 3.7 /\ 0 <= 50 /\
  (0 <=? calculatePower 3.7 (-1.5))%js = true /\
  (0 <=? calculateEnergy 3.7 50)%js = true.
Proof.
  assert (Hv : 0 <= 3.7) by (vm_compute; discriminate).
  assert (Hs : 0 <= 50) by (vm_compute; discriminate).
  destruct (C9_metrics_not_negative 3.7 (-1.5) 50 Hv Hs)
    as (_ & P & _ & E & _).
  repeat split; assumption.
Defined.

(** ** C10 *)

(** C10.  A calibration that asserts an SOC of exactly 0 does what a
    calibration without a value does, as do [null] and [false]: the default
    100 is substituted, the accumulator is emptied and the SOC of the new
    state, which the next update on a stalled clock returns, is 100. *)
Theorem C10_reset_zero_defaults_to_100
        (now : Z) (st : State) (current voltage : num) :
  reset_soc (JNumber 0) now st = reset_soc JUndefined now st /\
  reset_soc JNull now st = reset_soc JUndefined now st /\
  reset_soc (JBool false) now st = reset_soc JUndefined now st /\
  reset_soc JUndefined now st = reset_soc (JNumber 100) now st /\
  consumedCapacityAh (reset_soc (JNumber 0) now st) =n= 0 /\
  socOf (reset_soc (JNumber 0) now st) =n= 100 /\
  fst (update current voltage now (reset_soc (JNumber 0) now st)) =n= 100.
Proof.
  assert (Hsoc : socOf (reset_soc (JNumber 0) now st) =n= 100)
    by (vm_compute; reflexivity).
  do 4 (split; [reflexivity |]).
  split; [vm_compute; reflexivity |]. split; [exact Hsoc |].
  unfold update. rewrite calculateSOC_stalled; [exact Hsoc |].
  destruct (deltaHours now (reset_soc (JNumber 0) now st) >? 0)%js eqn:E;
    [| reflexivity].
  apply deltaHours_pos in E. cbn in E. lia.
Qed.

(** * Further properties of the two listings *)

(** ** The discharge curve of the first listing *)

Lemma voltage_soc_cases (v : Q) :
  exists s : Q,
    FormulaBased.calculateSOC v = Fin s /\ 0 <= s <= 100 /\
    ((4.2 <= v /\ s == 100) \/
     (4.0 <= v < 4.2 /\ s == 80 + (v - 4.0) * 100) \/
     (3.7 <= v < 4.0 /\ s == 40 + (v - 3.7) * (400 # 3)) \/
     (3.4 <= v < 3.7 /\ s == 10 + (v - 3.4) * 100) \/
     (3.0 <= v < 3.4 /\ s == (v - 3.0) * 25) \/
     (v < 3.0 /\ s == 0)).
Proof.
  unfold FormulaBased.calculateSOC.
  unfold Num.ge, Num.le, Num.sub, Num.div, Num.add, Num.mul.
  change (Qeq_bool (4.2 - 4.0) 0) with false.
  change (Qeq_bool (4.0 - 3.7) 0) with false.
  change (Qeq_bool (3.7 - 3.4) 0) with false.
  change (Qeq_bool (3.4 - 3.0) 0) with false.
  cbv iota.
  destruct (Qle_bool_spec 4.2 v);
    [| destruct (Qle_bool_spec 4.0 v);
       [| destruct (Qle_bool_spec 3.7 v);
          [| destruct (Qle_bool_spec 3.4 v);
             [| destruct (Qle_bool_spec 3.0 v)]]]];
    unfold Num.max, Num.min;
    match goal with
    | |- context [Qle_bool 100 ?x] =>
        destruct (Qle_bool_spec 100 x) as [Hhi | Hhi];
        [assert (x == 100) by (revert Hhi; qlin) |]
    end;
    match goal with
    | |- context [Qle_bool 0 ?x] =>
        destruct (Qle_bool_spec 0 x) as [Hlo | Hlo];
        [| exfalso; revert Hlo; qlin]
    end;
    (eexists; split; [reflexivity |]; split; [qlin |]).
  all: try (revert Hhi); try (revert Hlo).
  all: first
         [ left; qlin
         | right; left; qlin
         | right; right; left; qlin
         | right; right; right; left; qlin
         | right; right; right; right; left; qlin
         | right; right; right; right; right; qlin ].
Qed.

Lemma voltage_soc_nan : FormulaBased.calculateSOC NaN = Fin 0.
Proof. reflexivity. Qed.

(** X1.  The SOC the discharge curve gives is a number in [0, 100] for
    every voltage, finite or [NaN]; a [NaN] voltage gives 0. *)
Theorem X1_voltage_soc_in_range (voltage : num) :
  Num.within 0 100 (FormulaBased.calculateSOC voltage) /\
  (Num.isNaN voltage = true -> FormulaBased.calculateSOC voltage =n= 0).
Proof.
  destruct voltage as [| v].
  - rewrite voltage_soc_nan. cbn. split; [lra | reflexivity].
  - destruct (voltage_soc_cases v) as (s & E & R & _). rewrite E.
    split; [exact R | discriminate].
Qed.

Lemma X1_voltage_soc_in_range_witness :
  Num.isNaN NaN = true /\ FormulaBased.calculateSOC NaN =n= 0.
Proof.
  split; [reflexivity |].
  exact (proj2 (X1_voltage_soc_in_range NaN) eq_refl).
Defined.

(** X2.  The discharge curve is monotone: a voltage that is no lower gives
    an SOC that is no lower. *)
Theorem X2_voltage_soc_monotone (v1 v2 : Q) (Hle : v1 <= v2) :
  (FormulaBased.calculateSOC v1 <=? FormulaBased.calculateSOC v2)%js = true.
Proof.
  destruct (voltage_soc_cases v1) as (s1 & E1 & R1 & C1).
  destruct (voltage_soc_cases v2) as (s2 & E2 & R2 & C2).
  rewrite E1, E2. unfold Num.le.
  destruct (Qle_bool_spec s1 s2) as [| H]; [reflexivity |].
  exfalso. apply H.
  destruct C1 as [C1 | [C1 | [C1 | [C1 | [C1 | C1]]]]];
    destruct C2 as [C2 | [C2 | [C2 | [C2 | [C2 | C2]]]]]; lra.
Qed.

Lemma X2_voltage_soc_monotone_witness :
  3.5 <= 3.9 /\
  (FormulaBased.calculateSOC 3.5 <=? FormulaBased.calculateSOC 3.9)%js = true.
Proof.
  assert (H : 3.5 <= 3.9) by (vm_compute; discriminate).
  split; [exact H | exact (X2_voltage_soc_monotone 3.5 3.9 H)].
Defined.

(** X3.  The bands of the discharge curve: 4.0-4.2 V gives 80-100 percent,
    3.7-4.0 V gives 40-80, 3.4-3.7 V gives 10-40, 3.0-3.4 V gives 0-10; at
    4.2 V and above the SOC is 100 and at 3.0 V and below it is 0. *)
Theorem X3_voltage_soc_bands (v : Q) :
  (4.2 <= v -> FormulaBased.calculateSOC v =n= 100) /\
  (4.0 <= v <= 4.2 -> Num.within 80 100 (FormulaBased.calculateSOC v)) /\
  (3.7 <= v <= 4.0 -> Num.within 40 80 (FormulaBased.calculateSOC v)) /\
  (3.4 <= v <= 3.7 -> Num.within 10 40 (FormulaBased.calculateSOC v)) /\
  (3.0 <= v <= 3.4 -> Num.within 0 10 (FormulaBased.calculateSOC v)) /\
  (v <= 3.0 -> FormulaBased.calculateSOC v =n= 0).
Proof.
  destruct (voltage_soc_cases v) as (s & E & R & C). rewrite E.
  unfold Num.within, Num.same.
  repeat split; intros;
    destruct C as [C | [C | [C | [C | [C | C]]]]]; lra.
Qed.

Lemma X3_voltage_soc_bands_witness :
  3.7 <= 3.85 <= 4.0 /\ Num.within 40 80 (FormulaBased.calculateSOC 3.85).
Proof.
  assert (H : 3.7 <= 3.85 <= 4.0) by (split; vm_compute; discriminate).
  split; [exact H |].
  destruct (X3_voltage_soc_bands 3.85) as (_ & _ & B & _). exact (B H).
Defined.

(** ** The penalty model of the first listing *)

Lemma abs_neg (a : num) : Num.abs (Num.neg a) = Num.abs a.
Proof.
  destruct a as [| [n d]]; [reflexivity |].
  unfold Num.abs, Num.neg, Qabs, Qopp. cbn. now rewrite Z.abs_opp.
Qed.

(** X4.  The penalty model and the power see the current only through its
    absolute value: reversing the sign of the current changes neither. *)
Theorem X4_current_sign_ignored (voltage current temperature : num) :
  FormulaBased.calculateSOH voltage (Num.neg current) temperature
    = FormulaBased.calculateSOH voltage current temperature /\
  calculatePower voltage (Num.neg current) = calculatePower voltage current.
Proof.
  unfold FormulaBased.calculateSOH, calculatePower.
  now rewrite abs_neg.
Qed.

(** One penalty block again, now with the facts on the inputs at hand. *)
Ltac bounded_stage d H :=
  subst d; cbv zeta; js_unfold; split_tests;
  match type of H with
  | match ?d0 with NaN => _ | Fin _ => _ end =>
      destruct d0 as [| ?q]; [contradiction |]
  end;
  lra.

Lemma penalty_soh_low_voltage (voltage current temperature : num) :
  (voltage >? 4.22)%js = false ->
  Num.within 47 100 (FormulaBased.calculateSOH voltage current temperature).
Proof.
  intros Hv.
  assert (Habs : forall c : Q, 0 <= Qabs c) by apply Qabs_nonneg.
  cbv delta [FormulaBased.calculateSOH]; cbv beta.
  next_let. rename totalDegradation into d0.
  assert (H0 : Num.within 0 0 d0) by (subst d0; cbn; lra).
  clearbody d0.
  next_let. rename totalDegradation into d1.
  assert (H1 : Num.within 0 10 d1) by penalty_stage d1 H0.
  clearbody d1. clear H0 d0.
  next_let. rename totalDegradation into d2.
  assert (H2 : Num.within 0 25 d2) by penalty_stage d2 H1.
  clearbody d2. clear H1 d1.
  next_let. rename totalDegradation into d3.
  assert (H3 : Num.within 0 45 d3) by penalty_stage d3 H2.
  clearbody d3. clear H2 d2.
  next_let. next_let. next_let. rename totalDegradation into d4.
  assert (H4 : Num.within 0 53 d4) by penalty_stage d4 H3.
  clearbody d4. clear H3 d3.
  next_let. rename totalDegradation into d5.
  assert (H5 : Num.within 0 53 d5).
  { subst d5.
    assert (E : (voltage >? 4.25)%js = false).
    { destruct voltage as [| v]; [reflexivity |]. revert Hv. js_unfold.
      split_tests; try reflexivity; intros; try discriminate. exfalso. lra. }
    rewrite E, Hv. exact H4. }
  clearbody d5. clear H4 d4.
  next_let. subst soh. destruct d5 as [| q]; [contradiction |].
  js_unfold. split_tests; lra.
Qed.

Lemma penalty_soh_high_voltage (v : Q) (current temperature : num) :
  4.22 < v ->
  Num.within 47 100 (FormulaBased.calculateSOH v current temperature).
Proof.
  intros Hv.
  pose proof (Qabs_nonneg) as Habs.
  cbv delta [FormulaBased.calculateSOH]; cbv beta.
  next_let. rename totalDegradation into d0.
  assert (H0 : Num.within 0 0 d0) by (subst d0; cbn; lra).
  clearbody d0.
  next_let. rename totalDegradation into d1.
  assert (H1 : Num.within 0 0 d1).
  { destruct current as [| c]; [subst d1; exact H0 |].
    pose proof (Habs c). unfold Num.within in *. bounded_stage d1 H0. }
  clearbody d1. clear H0 d0.
  next_let. rename totalDegradation into d2.
  assert (H2 : Num.within 0 15 d2) by penalty_stage d2 H1.
  clearbody d2. clear H1 d1.
  next_let. rename totalDegradation into d3.
  assert (H3 : Num.within 0 15 d3)
    by (unfold Num.within in *; bounded_stage d3 H2).
  clearbody d3. clear H2 d2.
  next_let. next_let. next_let. rename totalDegradation into d4.
  assert (H4 : Num.within 0 23 d4) by penalty_stage d4 H3.
  clearbody d4. clear H3 d3.
  next_let. rename totalDegradation into d5.
  assert (H5 : Num.within 0 38 d5) by penalty_stage d5 H4.
  clearbody d5. clear H4 d4.
  next_let. subst soh. destruct d5 as [| q]; [contradiction |].
  js_unfold. split_tests; lra.
Qed.

(** X5.  The penalty model never returns less than 47: the penalties for a
    sagging or deeply discharged cell and the one for an overcharged cell
    exclude each other, so at most 53 points are taken off, and 53 are
    taken off at 2.5 V, 5 A and 70 degrees. *)
Theorem X5_penalty_soh_at_least_47 (voltage current temperature : num) :
  Num.within 47 100 (FormulaBased.calculateSOH voltage current temperature) /\
  FormulaBased.calculateSOH 2.5 5 70 =n= 47.
Proof.
  split; [| vm_compute; reflexivity].
  destruct (voltage >? 4.22)%js eqn:E.
  - destruct voltage as [| v]; [discriminate |].
    apply penalty_soh_high_voltage. revert E. js_unfold.
    split_tests; [easy | discriminate].
  - now apply penalty_soh_low_voltage.
Qed.

(** ** Runtime and range *)

Lemma le_zero_fin (s : Q) : (0 <=? Fin s)%js = true <-> 0 <= s.
Proof. unfold Num.le. apply Qle_bool_iff. Qed.

Lemma runtime_finite (s : Q) (current : num) :
  exists r : Q, calculateRuntime s current = Fin r.
Proof.
  unfold calculateRuntime.
  destruct ((current <=? 0)%js || Num.isNaN current) eqn:E.
  - js_unfold. change (Qeq_bool 100 0) with false. cbv iota. eauto.
  - destruct current as [| c]; [discriminate |].
    assert (Hc : ~ c <= 0).
    { revert E. cbn. destruct (Qle_bool_spec c 0); [discriminate | easy]. }
    destruct (Qabs_cases c) as [[_ Habs] | [Hneg _]]; [| exfalso; lra].
    js_unfold. change (Qeq_bool 100 0) with false. cbv iota.
    destruct (Qeq_bool_spec (Qabs c) 0) as [H0 | _]; [exfalso; lra |].
    eauto.
Qed.

Lemma range_of_runtime (s r : Q) (current : num) :
  calculateRuntime s current = Fin r ->
  calculateRange s current = Fin (if Qle_bool 0 (r * 25) then r * 25 else 0).
Proof. intros E. unfold calculateRange. rewrite E. reflexivity. Qed.

Lemma range_not_negative (s : Q) (current : num) :
  (0 <=? calculateRange s current)%js = true.
Proof.
  destruct (runtime_finite s current) as (r & E).
  rewrite (range_of_runtime s r current E). apply le_zero_fin.
  destruct (Qle_bool_spec 0 (r * 25)); lra.
Qed.

(** X7.  The range is never negative when the SOC is a number, whatever
    its sign and whatever the current; and for an SOC that is at least 0
    it is the runtime times 25 km/h. *)
Theorem X7_range_of_runtime (soc current : num) :
  (Num.isNaN soc = false -> (0 <=? calculateRange soc current)%js = true) /\
  ((0 <=? soc)%js = true ->
     calculateRange soc current =n= (calculateRuntime soc current * 25)%js).
Proof.
  split.
  - destruct soc as [| s]; [discriminate | intros _].
    apply range_not_negative.
  - intros Hsoc. pose proof (runtime_not_negative soc current Hsoc) as Hrun.
    destruct soc as [| s]; [discriminate |].
    destruct (runtime_finite s current) as (r & E).
    rewrite (range_of_runtime s r current E), E. rewrite E in Hrun.
    apply le_zero_fin in Hrun. cbn.
    destruct (Qle_bool_spec 0 (r * 25)); [reflexivity | exfalso; lra].
Qed.

Lemma X7_range_of_runtime_witness :
  Num.isNaN (-50) = false /\ (0 <=? calculateRange (-50) 0)%js = true /\
  (0 <=? 50)%js = true /\
  calculateRange 50 1 =n= (calculateRuntime 50 1 * 25)%js.
Proof.
  split; [reflexivity |].
  split; [exact (proj1 (X7_range_of_runtime (-50) 0) eq_refl) |].
  split; [reflexivity |].
  exact (proj2 (X7_range_of_runtime 50 1) eq_refl).
Defined.

(** ** The [/api/data] handler of the first listing *)

Lemma round_within (lo hi : Z) (a : num) :
  Num.within (inject_Z lo) (inject_Z hi) a ->
  exists n : Z, Num.round a = Fin (inject_Z n) /\ (lo <= n <= hi)%Z.
Proof.
  destruct a as [| x]; [intros [] | intros [Hlo Hhi]].
  exists (Qfloor (x + (1 # 2))). split; [reflexivity |]. split.
  - rewrite <- (Qfloor_Z lo). apply Qfloor_resp_le. lra.
  - assert (H : (Qfloor (x + (1 # 2)) < hi + 1)%Z).
    { pose proof (Qfloor_le (x + (1 # 2))) as Hfl.
      rewrite Zlt_Qlt, inject_Z_plus.
      setoid_replace (inject_Z 1) with 1 by reflexivity. lra. }
    lia.
Qed.

Lemma or_zero_finite (a : num) : exists x : Q, Num.or_zero a = Fin x.
Proof.
  destruct a as [| x]; cbn; [eauto |]. destruct (Qeq_bool x 0); eauto.
Qed.

(** X6.  Whatever finite number or [NaN] each of the three fields of the
    feed parses to, the response of the first listing carries an SOC and an SOH
    that are whole numbers between 0 and 100, and a runtime, a range and an
    energy that are not negative. *)
Theorem X6_data_metrics_in_range (field1 field2 field3 : num) :
  let d := FormulaBased.batteryData field1 field2 field3 in
  (exists n : Z,
      FormulaBased.bd_soc d = Fin (inject_Z n) /\ (0 <= n <= 100)%Z) /\
  (exists n : Z,
      FormulaBased.bd_soh d = Fin (inject_Z n) /\ (0 <= n <= 100)%Z) /\
  (0 <=? FormulaBased.bd_runtime d)%js = true /\
  (0 <=? FormulaBased.bd_range d)%js = true /\
  (0 <=? FormulaBased.bd_energy d)%js = true.
Proof.
  cbv zeta. unfold FormulaBased.batteryData.
  cbn [FormulaBased.bd_soc FormulaBased.bd_soh FormulaBased.bd_runtime
       FormulaBased.bd_range FormulaBased.bd_energy].
  destruct (or_zero_finite field1) as (v & Ev). rewrite Ev.
  set (current := Num.or_zero field2). set (temperature := Num.or_zero field3).
  destruct (voltage_soc_cases v) as (s & Es & Rs & Cs). rewrite Es.
  assert (Hs : (0 <=? Fin s)%js = true) by (apply le_zero_fin; lra).
  split; [| split; [| split; [| split]]].
  - apply (round_within 0 100 (Fin s)). exact Rs.
  - apply (round_within 0 100). apply penalty_soh_within.
  - now apply runtime_not_negative.
  - apply range_not_negative.
  - unfold calculateEnergy. js_unfold.
    change (Qeq_bool 100 0) with false. cbv iota.
    destruct (Qle_bool_spec 0 (v * (s / 100 * 2.0))) as [| H]; [reflexivity |].
    exfalso. apply H. unfold Qdiv.
    setoid_replace (/ 100) with (1 # 100) by reflexivity.
    destruct Cs as [C | [C | [C | [C | [C | [C0 C]]]]]];
      [nra | nra | nra | nra | nra |].
    rewrite C. lra.
Qed.

(** ** The clock of the coulomb counter *)

Lemma update_lastUpdateTime (current voltage : num) (now : Z) (st : State) :
  lastUpdateTime (snd (update current voltage now st))
    = Z.max (lastUpdateTime st) now.
Proof.
  unfold update, calculateSOC. fold (deltaHours now st). cbn [snd].
  destruct (deltaHours now st >? 0)%js eqn:E.
  - apply deltaHours_pos in E.
    destruct (current * 1000 >? 0)%js; cbn; lia.
  - assert (H : ~ (lastUpdateTime st < now)%Z).
    { intros H. apply deltaHours_pos in H. congruence. }
    lia.
Qed.

Lemma update_stalled (current voltage : num) (now : Z) (st : State) :
  (now <= lastUpdateTime st)%Z ->
  update current voltage now st = (socOf st, st).
Proof.
  intros H. unfold update. apply calculateSOC_stalled.
  destruct (deltaHours now st >? 0)%js eqn:E; [| reflexivity].
  apply deltaHours_pos in E. lia.
Qed.

(** X9.  An update leaves [lastUpdateTime] at the later of its old value
    and the clock reading of the call: a clock that stands still or steps
    back never moves it. *)
Theorem X9_last_update_time_is_max
        (current voltage : num) (now : Z) (st : State) :
  lastUpdateTime (snd (update current voltage now st))
    = Z.max (lastUpdateTime st) now /\
  (lastUpdateTime st <= lastUpdateTime (snd (update current voltage now st)))%Z.
Proof.
  rewrite update_lastUpdateTime. split; [reflexivity | lia].
Qed.

(** X10.  A second sample that arrives at the clock reading of the first
    changes nothing, whatever it carries: the state stays as the first
    sample left it and the same SOC is returned. *)
Theorem X10_same_clock_update_is_noop
        (c1 v1 c2 v2 : num) (now : Z) (st : State) :
  update c2 v2 now (snd (update c1 v1 now st))
    = (fst (update c1 v1 now st), snd (update c1 v1 now st)).
Proof.
  rewrite update_stalled.
  - reflexivity.
  - rewrite update_lastUpdateTime. lia.
Qed.

(** ** Calibration and read-back *)

(** X12.  A calibration outside the scale reads back saturated: after a
    calibration that asserts 100 percent or more the next sample at the
    same clock reading returns exactly 100, and after one that asserts less
    than 0 it returns exactly 0, although the accumulator was set from the
    percentage as given. *)
Theorem X12_reset_reads_back_saturated
        (q : Q) (current voltage : num) (now : Z) (st : State) :
  (100 <= q ->
   fst (update current voltage now (reset_soc (JNumber q) now st)) =n= 100) /\
  (q < 0 ->
   fst (update current voltage now (reset_soc (JNumber q) now st)) =n= 0).
Proof.
  rewrite update_stalled by (cbn; lia). cbn [fst].
  unfold socOf, reset_soc, or_else. cbn [truthy].
  split; intros Hq;
    (destruct (Qeq_bool_spec q 0) as [H | _]; [exfalso; lra |]);
    cbn [negb ToNumber set_lastUpdateTime set_consumedCapacity
         consumedCapacity];
    unfold BATTERY_CAPACITY; js_unfold;
    change (Qeq_bool 100 0) with false;
    change (Qeq_bool 2000.0 0) with false;
    cbv iota; split_tests; qlin.
Qed.

Lemma X12_reset_reads_back_saturated_witness :
  100 <= 150 /\
  fst (update 2 3.7 9000 (reset_soc (JNumber 150) 9000 (initial 0)))
    =n= 100 /\
  -20 < 0 /\
  fst (update 2 3.7 9000 (reset_soc (JNumber (-20)) 9000 (initial 0)))
    =n= 0.
Proof.
  assert (H1 : 100 <= 150) by (vm_compute; discriminate).
  assert (H2 : -20 < 0) by reflexivity.
  split; [exact H1 |].
  split; [exact (proj1 (X12_reset_reads_back_saturated
                          150 2 3.7 9000 (initial 0)) H1) |].
  split; [exact H2 |].
  exact (proj2 (X12_reset_reads_back_saturated
                  (-20) 2 3.7 9000 (initial 0)) H2).
Defined.

(** ** The factor model of the second listing *)

Lemma factor_soh_table (voltage temperature : num) :
  exists vf tf : Q,
    CoulombCounting.calculateSOH voltage temperature =n= Fin (vf * tf * 100) /\
    (((voltage <? MIN_VOLTAGE + 0.2)%js = true /\ vf = 0.8) \/
     ((voltage <? MIN_VOLTAGE + 0.2)%js = false /\
      (voltage <? NOMINAL_VOLTAGE)%js = true /\ vf = 0.9) \/
     ((voltage <? MIN_VOLTAGE + 0.2)%js = false /\
      (voltage <? NOMINAL_VOLTAGE)%js = false /\ vf = 1.0)) /\
    (((temperature >? 45.0)%js || (temperature <? 0.0)%js = true /\
      tf = 0.85) \/
     ((temperature >? 45.0)%js || (temperature <? 0.0)%js = false /\
      (temperature >? 35.0)%js || (temperature <? 10.0)%js = true /\
      tf = 0.95) \/
     ((temperature >? 45.0)%js || (temperature <? 0.0)%js = false /\
      (temperature >? 35.0)%js || (temperature <? 10.0)%js = false /\
      tf = 1.0)).
Proof.
  unfold CoulombCounting.calculateSOH.
  destruct (voltage <? MIN_VOLTAGE + 0.2)%js;
    [exists 0.8 | destruct (voltage <? NOMINAL_VOLTAGE)%js;
                    [exists 0.9 | exists 1.0]];
    (destruct ((temperature >? 45.0)%js || (temperature <? 0.0)%js);
     [exists 0.85
     | destruct ((temperature >? 35.0)%js || (temperature <? 10.0)%js);
       [exists 0.95 | exists 1.0]]);
    (split; [vm_compute; reflexivity | tauto]).
Qed.

Lemma below_nominal (voltage : num) :
  (voltage <? MIN_VOLTAGE + 0.2)%js = true ->
  (voltage <? NOMINAL_VOLTAGE)%js = true.
Proof.
  destruct voltage as [| v]; [discriminate |].
  unfold MIN_VOLTAGE, NOMINAL_VOLTAGE. js_unfold.
  split_tests; try easy. intros _. exfalso. lra.
Qed.

Lemma extreme_temperature (temperature : num) :
  (temperature >? 45.0)%js || (temperature <? 0.0)%js = true ->
  (temperature >? 35.0)%js || (temperature <? 10.0)%js = true.
Proof.
  destruct temperature as [| t]; [discriminate |]. js_unfold.
  split_tests; try easy; intros _; exfalso; lra.
Qed.

(** X15.  The factor model never returns less than 68, and it returns 100
    exactly when the voltage is not below the nominal 3.7 V and the
    temperature is neither above 35 nor below 10 degrees. *)
Theorem X15_factor_soh_full_health (voltage temperature : num) :
  Num.within 68 100 (CoulombCounting.calculateSOH voltage temperature) /\
  (CoulombCounting.calculateSOH voltage temperature =n= 100 <->
   (voltage <? NOMINAL_VOLTAGE)%js = false /\
   (temperature >? 35.0)%js || (temperature <? 10.0)%js = false).
Proof.
  destruct (factor_soh_table voltage temperature) as (vf & tf & E & Hv & Ht).
  pose proof (below_nominal voltage) as Hbn.
  pose proof (extreme_temperature temperature) as Hex.
  destruct (CoulombCounting.calculateSOH voltage temperature) as [| s];
    [contradiction |].
  unfold Num.same in *. unfold Num.within.
  destruct Hv as [[V1 ->] | [(V1 & V2 & ->) | (V1 & V2 & ->)]];
    destruct Ht as [[T1 ->] | [(T1 & T2 & ->) | (T1 & T2 & ->)]];
    (split; [lra |]);
    (split; [intros Hs | intros [A B]]);
    try (exfalso; lra); try lra;
    try (specialize (Hbn V1)); try (specialize (Hex T1)); try congruence;
    try (split; congruence).
Qed.

Lemma X15_factor_soh_full_health_witness :
  ((3.9 <? NOMINAL_VOLTAGE)%js = false /\
   (20 >? 35.0)%js || (20 <? 10.0)%js = false) /\
  CoulombCounting.calculateSOH 3.9 20 =n= 100.
Proof.
  assert (H : (3.9 <? NOMINAL_VOLTAGE)%js = false /\
              (20 >? 35.0)%js || (20 <? 10.0)%js = false)
    by (split; reflexivity).
  split; [exact H |].
  exact (proj2 (proj2 (X15_factor_soh_full_health 3.9 20)) H).
Defined.

(** X16.  In the factor model a higher voltage never lowers the SOH at a
    given temperature. *)
Theorem X16_factor_soh_monotone_in_voltage
        (v1 v2 : Q) (temperature : num) (Hle : v1 <= v2) :
  (CoulombCounting.calculateSOH v1 temperature
     <=? CoulombCounting.calculateSOH v2 temperature)%js = true.
Proof.
  destruct (factor_soh_table v1 temperature) as (vf1 & tf1 & E1 & Hv1 & Ht1).
  destruct (factor_soh_table v2 temperature) as (vf2 & tf2 & E2 & Hv2 & Ht2).
  destruct (CoulombCounting.calculateSOH v1 temperature) as [| s1];
    [contradiction |].
  destruct (CoulombCounting.calculateSOH v2 temperature) as [| s2];
    [contradiction |].
  unfold Num.same in *. unfold Num.le.
  destruct (Qle_bool_spec s1 s2) as [| H]; [reflexivity |].
  exfalso. apply H. rewrite E1, E2. clear H E1 E2.
  assert (Htf : tf1 = tf2).
  { destruct Ht1 as [[A ->] | [(A & B & ->) | (A & B & ->)]];
      destruct Ht2 as [[A' ->] | [(A' & B' & ->) | (A' & B' & ->)]];
      congruence. }
  subst tf2.
  assert (Hpos : 0 <= tf1).
  { destruct Ht1 as [[_ ->] | [(_ & _ & ->) | (_ & _ & ->)]]; lra. }
  assert (Hvf : vf1 <= vf2).
  { revert Hv1 Hv2. unfold MIN_VOLTAGE, NOMINAL_VOLTAGE. js_unfold.
    intros [[A ->] | [(A & B & ->) | (A & B & ->)]]
           [[A' ->] | [(A' & B' & ->) | (A' & B' & ->)]];
      try lra; revert A A'; try revert B; try revert B';
      split_tests; intros; try discriminate; exfalso; lra. }
  nra.
Qed.

Lemma X16_factor_soh_monotone_in_voltage_witness :
  3.1 <= 3.5 /\
  (CoulombCounting.calculateSOH 3.1 50
     <=? CoulombCounting.calculateSOH 3.5 50)%js = true.
Proof.
  assert (H : 3.1 <= 3.5) by (vm_compute; discriminate).
  split; [exact H |].
  exact (X16_factor_soh_monotone_in_voltage 3.1 3.5 50 H).
Defined.

(** ** The mode relay *)

Lemma post_mode_valid (m : string) (thingspeak : Z -> ModeApi.reply) :
  m = "eco"%string \/ m = "sport"%string ->
  ModeApi.post_mode (Some m) thingspeak =
  let modeValue := if (m =? "eco")%string then 0%Z else 1%Z in
  match thingspeak modeValue with
  | ModeApi.Throws message => ModeApi.Status500 message
  | ModeApi.DataNumber n =>
      if (n =? 0)%Z then
        ModeApi.Status500
          "ThingSpeak write failed (rate limit or invalid API key)"
      else
        ModeApi.Status200 m modeValue
                          (ModeApi.toUpperCase m ++ " mode activated")
  | ModeApi.DataString str =>
      if (str =? "0")%string then
        ModeApi.Status500
          "ThingSpeak write failed (rate limit or invalid API key)"
      else
        ModeApi.Status200 m modeValue
                          (ModeApi.toUpperCase m ++ " mode activated")
  end.
Proof. intros [-> | ->]; reflexivity. Qed.

Lemma post_mode_invalid (m : string) (thingspeak : Z -> ModeApi.reply) :
  m <> "eco"%string -> m <> "sport"%string ->
  ModeApi.post_mode (Some m) thingspeak = ModeApi.Status400.
Proof.
  intros He Hs. unfold ModeApi.post_mode.
  destruct (String.eqb_spec m "eco"); [contradiction |].
  destruct (String.eqb_spec m "sport"); [contradiction |].
  cbn. now rewrite orb_true_r.
Qed.

(** X17.  The mode relay answers 400 exactly when the mode is not the
    string "eco" or "sport" (a missing mode, another type, another
    spelling), and then whatever ThingSpeak would answer plays no part. *)
Theorem X17_mode_rejected_iff_invalid
        (mode : option string) (thingspeak : Z -> ModeApi.reply) :
  ModeApi.post_mode mode thingspeak = ModeApi.Status400 <->
  mode <> Some "eco"%string /\ mode <> Some "sport"%string.
Proof.
  destruct mode as [m |]; [| cbn; split; [split; discriminate | reflexivity]].
  destruct (String.eqb_spec m "eco") as [He | He];
    [| destruct (String.eqb_spec m "sport") as [Hs | Hs]].
  - rewrite post_mode_valid by auto. subst m. cbv zeta.
    split; [| intros [H _]; now contradiction H].
    change ("eco" =? "eco")%string with true. cbv iota.
    destruct (thingspeak 0%Z) as [msg | n | str];
      [| destruct (n =? 0)%Z | destruct (str =? "0")%string];
      intros H; discriminate H.
  - rewrite post_mode_valid by auto. subst m. cbv zeta.
    split; [| intros [_ H]; now contradiction H].
    change ("sport" =? "eco")%string with false. cbv iota.
    destruct (thingspeak 1%Z) as [msg | n | str];
      [| destruct (n =? 0)%Z | destruct (str =? "0")%string];
      intros H; discriminate H.
  - rewrite post_mode_invalid by assumption.
    split; [intros _ | reflexivity]. split; congruence.
Qed.

Lemma X17_mode_rejected_iff_invalid_witness :
  (Some "ECO"%string <> Some "eco"%string /\
   Some "ECO"%string <> Some "sport"%string) /\
  ModeApi.post_mode (Some "ECO"%string) (fun _ => ModeApi.DataNumber 12)
    = ModeApi.Status400.
Proof.
  assert (H : Some "ECO"%string <> Some "eco"%string /\
              Some "ECO"%string <> Some "sport"%string)
    by (split; discriminate).
  split; [exact H |].
  exact (proj2 (X17_mode_rejected_iff_invalid
                  (Some "ECO"%string) (fun _ => ModeApi.DataNumber 12)) H).
Defined.

(** X18.  The mode relay answers 200 exactly when the mode is "eco" or
    "sport" and the write of [field5] went through; the value written is 0
    for "eco" and 1 for "sport", and the answer echoes the mode, that value
    and the message "ECO mode activated" or "SPORT mode activated". *)
Theorem X18_mode_accepted_iff_written
        (mode : option string) (thingspeak : Z -> ModeApi.reply)
        (m : string) (v : Z) (message : string) :
  ModeApi.post_mode mode thingspeak = ModeApi.Status200 m v message <->
  mode = Some m /\
  ((m = "eco"%string /\ v = 0%Z /\ message = "ECO mode activated"%string) \/
   (m = "sport"%string /\ v = 1%Z /\
    message = "SPORT mode activated"%string)) /\
  ModeApi.accepted (thingspeak v).
Proof.
  destruct mode as [m' |];
    [| cbn; split; [discriminate | intros [H _]; discriminate]].
  destruct (String.eqb_spec m' "eco") as [He | He];
    [| destruct (String.eqb_spec m' "sport") as [Hs | Hs]].
  - rewrite post_mode_valid by auto. subst m'. cbv zeta.
    change ("eco" =? "eco")%string with true. cbv iota.
    change (ModeApi.toUpperCase "eco" ++ " mode activated")%string
      with "ECO mode activated"%string.
    split.
    + destruct (thingspeak 0%Z) as [msg | n | str] eqn:E;
        [discriminate
        | destruct (Z.eqb_spec n 0); [discriminate |]
        | destruct (String.eqb_spec str "0"); [discriminate |]];
        intros H; injection H as <- <- <-; rewrite E; cbn; auto 6.
    + intros (H & [(-> & -> & ->) | (-> & _ & _)] & Hacc);
        [| discriminate].
      destruct (thingspeak 0%Z) as [msg | n | str]; cbn in Hacc;
        [contradiction
        | destruct (Z.eqb_spec n 0); [contradiction | reflexivity]
        | destruct (String.eqb_spec str "0"); [contradiction | reflexivity]].
  - rewrite post_mode_valid by auto. subst m'. cbv zeta.
    change ("sport" =? "eco")%string with false. cbv iota.
    change (ModeApi.toUpperCase "sport" ++ " mode activated")%string
      with "SPORT mode activated"%string.
    split.
    + destruct (thingspeak 1%Z) as [msg | n | str] eqn:E;
        [discriminate
        | destruct (Z.eqb_spec n 0); [discriminate |]
        | destruct (String.eqb_spec str "0"); [discriminate |]];
        intros H; injection H as <- <- <-; rewrite E; cbn; auto 6.
    + intros (H & [(-> & _ & _) | (-> & -> & ->)] & Hacc);
        [discriminate |].
      destruct (thingspeak 1%Z) as [msg | n | str]; cbn in Hacc;
        [contradiction
        | destruct (Z.eqb_spec n 0); [contradiction | reflexivity]
        | destruct (String.eqb_spec str "0"); [contradiction | reflexivity]].
  - rewrite post_mode_invalid by assumption.
    split; [discriminate |].
    intros (H & [(-> & _) | (-> & _)] & _); congruence.
Qed.

Lemma X18_mode_accepted_iff_written_witness :
  ModeApi.accepted (ModeApi.DataNumber 12) /\
  ModeApi.post_mode (Some "sport"%string) (fun _ => ModeApi.DataNumber 12)
    = ModeApi.Status200 "sport" 1 "SPORT mode activated".
Proof.
  assert (H : ModeApi.accepted (ModeApi.DataNumber 12)) by discriminate.
  split; [exact H |].
  apply (proj2 (X18_mode_accepted_iff_written
                  (Some "sport"%string) (fun _ => ModeApi.DataNumber 12)
                  "sport" 1 "SPORT mode activated")).
  split; [reflexivity |]. split; [| exact H].
  right. repeat split.
Defined.

(** ** The battery fill of the dashboard *)

(** X19.  For an SOC between 0 and 100 the fill of the battery graphic is
    between 0 and 180 wide, the width of the battery body, and it is 180
    wide only at 100 percent. *)
Theorem X19_fill_width_fits (soc : Q) (Hsoc : 0 <= soc <= 100) :
  Num.within 0 180 (Dashboard.fillWidth soc) /\
  (Dashboard.fillWidth soc =n= 180 <-> soc == 100).
Proof.
  unfold Dashboard.fillWidth. js_unfold.
  change (Qeq_bool 100 0) with false. cbv iota.
  unfold Qdiv. setoid_replace (/ 100) with (1 # 100) by reflexivity.
  repeat split; intros; lra.
Qed.

Lemma X19_fill_width_fits_witness :
  0 <= 58 <= 100 /\ Num.within 0 180 (Dashboard.fillWidth 58).
Proof.
  assert (H : 0 <= 58 <= 100) by (split; vm_compute; discriminate).
  split; [exact H | exact (proj1 (X19_fill_width_fits 58 H))].
Defined.
